(** * mhcpp core: hypercubes, fitness scores and evaluators

    A shallow embedding of [src/cpp/mhcpp/core.h] and the properties of
    its specification, checked against that embedding.

    - [std::map<string, MMV>] is a [gmap string MMV]; no method of the
      header iterates over the map, so the key order of [std::map] is
      never observed and only lookup, insertion and size are used.
    - [double] is the kernel's IEEE 754 binary64 type [float].
    - The template parameter [T] of [HyperCube<T>] is taken at [double],
      the only instantiation the header names ([IHyperCube<double>] in
      [IHyperCubeOperations]); [MMV] stores [double]s whatever [T] is.
    - A method is a function from the state of the object it is called
      on to an [outcome]: it returns a value or throws, and leaves a
      state behind in both cases. *)

From Stdlib Require Import Floats ZArith.
From stdpp Require Import gmap strings list fin_maps.

(** ** Outcomes of method calls *)

Definition double : Type := float.
Bind Scope float_scope with double.

(** The kinds of failure the specification names.  The header contains
    no [throw] statement; the type is what lets a property of the form
    "fails with E" be stated about its methods at all. *)
Inductive exception : Type :=
  | DomainError
  | UnknownVariableError
  | IncompatibleSystemError
  | IncompatibleGeometryError
  | EmptyInputError
  | IndexOutOfRangeError.

Inductive outcome (St A : Type) : Type :=
  | Returns (a : A) (s : St)
  | Throws (e : exception) (s : St).
Arguments Returns {St A} a s.
Arguments Throws {St A} e s.

Definition method (St A : Type) : Type := St -> outcome St A.

Definition ret {St A} (a : A) : method St A := fun s => Returns a s.

Definition bind {St A B} (m : method St A) (k : A -> method St B) : method St B :=
  fun s =>
    match m s with
    | Returns a s' => k a s'
    | Throws e s' => Throws e s'
    end.

Declare Scope method_scope.
Delimit Scope method_scope with method.
Notation "x <- m ;; k" := (bind m (fun x => k))
  (at level 100, m at next level, right associativity) : method_scope.
Notation "m ;; k" := (bind m (fun _ => k))
  (at level 100, right associativity) : method_scope.

Definition returns_normally {St A} (o : outcome St A) : Prop :=
  match o with Returns _ _ => True | Throws _ _ => False end.

Definition fails_with {St A} (e : exception) (o : outcome St A) : Prop :=
  match o with Returns _ _ => False | Throws e' _ => e' = e end.

Definition final_state {St A} (o : outcome St A) : St :=
  match o with Returns _ s => s | Throws _ s => s end.

(** ** HyperCube *)

(** [class MMV]: a name and three doubles. *)
Record MMV : Type := mkMMV {
  Name : string;
  Min : double;
  Max : double;
  Value : double
}.

(** [MMV(string name, double min, double max, double value)]; the
    initialiser list is [Name(name), Max(max), Min(min), Value(value)]. *)
Definition MMV_new (name : string) (min max value : double) : MMV :=
  {| Name := name; Min := min; Max := max; Value := value |}.

(** [MMV(){}] initialises [Name] to the empty string and leaves the
    three doubles uninitialised.  What such a double holds is not fixed
    by the program, so it is a parameter of the model. *)
Class Indeterminate : Type := {
  indeterminate_Min : double;
  indeterminate_Max : double;
  indeterminate_Value : double
}.

Definition MMV_default `{Indeterminate} : MMV :=
  {| Name := "";
     Min := indeterminate_Min;
     Max := indeterminate_Max;
     Value := indeterminate_Value |}.

(** [class HyperCube]: its only data member is [std::map<string, MMV> def]. *)
Record HyperCube : Type := mkHyperCube { def : gmap string MMV }.

Definition HyperCube_new : HyperCube := {| def := ∅ |}.

Section HyperCube_methods.
Context `{Indeterminate}.

(** [def[name]]: [std::map::operator[]] yields the entry stored under
    [name], after inserting a default-constructed one when there is
    none. *)
Definition subscript (name : string) (m : gmap string MMV) : MMV * gmap string MMV :=
  match m !! name with
  | Some e => (e, m)
  | None => (MMV_default, <[name := MMV_default]> m)
  end.

(** [vector<string> res; return res;] *)
Definition GetVariableNames : method HyperCube (list string) :=
  fun this => Returns [] this.

(** [def[name] = MMV(name, min, max, value);] *)
Definition Define (name : string) (min max value : double) : method HyperCube unit :=
  fun this =>
    let '(_, m) := subscript name (def this) in
    Returns tt {| def := <[name := MMV_new name min max value]> m |}.

(** [return def.size();] *)
Definition Dimensions : method HyperCube nat :=
  fun this => Returns (size (def this)) this.

(** [return def[variableName].Value;] *)
Definition GetValue (variableName : string) : method HyperCube double :=
  fun this =>
    let '(e, m) := subscript variableName (def this) in
    Returns (Value e) {| def := m |}.

(** [return def[variableName].Max;] *)
Definition GetMaxValue (variableName : string) : method HyperCube double :=
  fun this =>
    let '(e, m) := subscript variableName (def this) in
    Returns (Max e) {| def := m |}.

(** [return def[variableName].Min;] *)
Definition GetMinValue (variableName : string) : method HyperCube double :=
  fun this =>
    let '(e, m) := subscript variableName (def this) in
    Returns (Min e) {| def := m |}.

(** [def[variableName].Value = value;] *)
Definition SetValue (variableName : string) (value : double) : method HyperCube unit :=
  fun this =>
    let '(e, m) := subscript variableName (def this) in
    Returns tt {| def := <[variableName :=
                   {| Name := Name e; Min := Min e; Max := Max e; Value := value |}]> m |}.

(** [def[variableName].Min = value;] *)
Definition SetMinValue (variableName : string) (value : double) : method HyperCube unit :=
  fun this =>
    let '(e, m) := subscript variableName (def this) in
    Returns tt {| def := <[variableName :=
                   {| Name := Name e; Min := value; Max := Max e; Value := Value e |}]> m |}.

(** [def[variableName].Max = value;] *)
Definition SetMaxValue (variableName : string) (value : double) : method HyperCube unit :=
  fun this =>
    let '(e, m) := subscript variableName (def this) in
    Returns tt {| def := <[variableName :=
                   {| Name := Name e; Min := Min e; Max := value; Value := Value e |}]> m |}.

(** [string GetConfigurationDescription() { return ""; }] *)
Definition GetConfigurationDescription : method HyperCube string :=
  fun this => Returns "" this.

(** [void ApplyConfiguration(void* system) {}]: the object behind the
    untyped pointer is part of the state the call could change. *)
Definition ApplyConfiguration {System : Type} : method (HyperCube * System) unit :=
  fun '(this, system) => Returns tt (this, system).

End HyperCube_methods.

(** A run of [Define] calls, one per listed variable, in the order of
    the list. *)
Definition Define_each `{Indeterminate}
    (vars : list (string * (double * double * double))) : method HyperCube unit :=
  foldr (fun '(name, (min, max, value)) rest =>
           (Define name min max value ;; rest)%method)
        (ret tt) vars.

(** ** Calls on a hypercube *)

(** A call, with its arguments, of one of the methods of [HyperCube]
    that take the hypercube and nothing else to act on. *)
Inductive call : Type :=
  | Call_GetVariableNames
  | Call_Define (name : string) (min max value : double)
  | Call_Dimensions
  | Call_GetValue (variableName : string)
  | Call_GetMaxValue (variableName : string)
  | Call_GetMinValue (variableName : string)
  | Call_SetValue (variableName : string) (value : double)
  | Call_SetMinValue (variableName : string) (value : double)
  | Call_SetMaxValue (variableName : string) (value : double)
  | Call_GetConfigurationDescription.

(** The variable a call names, for those that name one. *)
Definition call_name (c : call) : option string :=
  match c with
  | Call_Define name _ _ _ => Some name
  | Call_GetValue name | Call_GetMaxValue name | Call_GetMinValue name => Some name
  | Call_SetValue name _ | Call_SetMinValue name _ | Call_SetMaxValue name _ => Some name
  | Call_GetVariableNames | Call_Dimensions | Call_GetConfigurationDescription => None
  end.

(** The hypercube a call leaves behind. *)
Definition perform `{Indeterminate} (c : call) (this : HyperCube) : HyperCube :=
  match c with
  | Call_GetVariableNames => final_state (GetVariableNames this)
  | Call_Define name min max value => final_state (Define name min max value this)
  | Call_Dimensions => final_state (Dimensions this)
  | Call_GetValue name => final_state (GetValue name this)
  | Call_GetMaxValue name => final_state (GetMaxValue name this)
  | Call_GetMinValue name => final_state (GetMinValue name this)
  | Call_SetValue name value => final_state (SetValue name value this)
  | Call_SetMinValue name value => final_state (SetMinValue name value this)
  | Call_SetMaxValue name value => final_state (SetMaxValue name value this)
  | Call_GetConfigurationDescription => final_state (GetConfigurationDescription this)
  end.

(** A sequence of calls, performed from left to right. *)
Definition perform_all `{Indeterminate} (cs : list call) (this : HyperCube) : HyperCube :=
  foldl (fun s c => perform c s) this cs.

(** What a call makes of the entry [def[name]] it works on. *)
Definition call_update (c : call) (e : MMV) : MMV :=
  match c with
  | Call_Define name min max value => MMV_new name min max value
  | Call_SetValue _ value =>
      {| Name := Name e; Min := Min e; Max := Max e; Value := value |}
  | Call_SetMinValue _ value =>
      {| Name := Name e; Min := value; Max := Max e; Value := Value e |}
  | Call_SetMaxValue _ value =>
      {| Name := Name e; Min := Min e; Max := value; Value := Value e |}
  | _ => e
  end.

(** The entry [def[name]] refers to: the one stored, or a
    default-constructed one. *)
Definition entry `{Indeterminate} (name : string) (this : HyperCube) : MMV :=
  (subscript name (def this)).1.

(** A call that reads no uninitialised member: it is a [Define], or the
    variable it names is defined. *)
Definition settled (c : call) (this : HyperCube) : Prop :=
  match c with
  | Call_Define _ _ _ _ => True
  | _ => match call_name c with
         | Some name => is_Some (def this !! name)
         | None => True
         end
  end.

(** Every variable has min <= max. *)
Definition well_bounded (this : HyperCube) : Prop :=
  forall name e, def this !! name = Some e -> (Min e <=? Max e)%float = true.

(** A call that respects the bounds: [Define] with min <= max,
    [SetMinValue] at most the stored max, [SetMaxValue] at least the
    stored min, and any other call on a defined variable. *)
Definition within_bounds (c : call) (this : HyperCube) : Prop :=
  match c with
  | Call_Define _ min max _ => (min <=? max)%float = true
  | Call_SetMinValue name value =>
      exists e, def this !! name = Some e /\ (value <=? Max e)%float = true
  | Call_SetMaxValue name value =>
      exists e, def this !! name = Some e /\ (Min e <=? value)%float = true
  | _ => settled c this
  end.

(** ** Objective scores *)

(** [class IObjectiveScore]: an object seen through its three queries. *)
Module IObjectiveScore.
Record t : Type := {
  Maximise : bool;
  GetText : string;
  Name : string
}.
End IObjectiveScore.

(** [class IObjectiveScores<TSysConf>], with the members it inherits
    from [IBaseObjectiveScores]. *)
Module IObjectiveScores.
Record t (TSysConf : Type) : Type := {
  ObjectiveCount : nat;
  GetObjective : Z -> IObjectiveScore.t;
  SystemConfiguration : TSysConf
}.
End IObjectiveScores.

(** A pointer is null or refers to an object. *)
Definition pointer (A : Type) : Type := option A.

(** The constraint [where T : IComparable] that the header keeps as a
    comment on its type parameters: [T] comes with a [CompareTo] that
    returns an [int]. *)
Class IComparable (T : Type) : Type := CompareTo : T -> T -> Z.

(** What it means for [T]'s [CompareTo] to follow a numeric order [lt]
    of [T]: negative below, zero on equal values, positive above. *)
Class NumericCompare (T : Type) `{IComparable T} (lt : T -> T -> Prop) : Prop := {
  lt_trans : forall x y z, lt x y -> lt y z -> lt x z;
  CompareTo_neg : forall x y, (CompareTo x y < 0)%Z <-> lt x y;
  CompareTo_zero : forall x y, CompareTo x y = 0%Z <-> x = y;
  CompareTo_pos : forall x y, (0 < CompareTo x y)%Z <-> lt y x
}.

(** ** FitnessAssignedScores *)

Module FitnessAssignedScores.
Section Def.
Context {T TSys : Type} `{IComparable T}.

Record t : Type := {
  Scores : pointer (IObjectiveScores.t TSys);
  FitnessValue : T
}.

(** [this->Scores = scores; this->FitnessValue = fitnessValue;] *)
Definition new (scores : pointer (IObjectiveScores.t TSys)) (fitnessValue : T) : t :=
  {| Scores := scores; FitnessValue := fitnessValue |}.

(** [return this->FitnessValue.CompareTo(other.FitnessValue);] *)
Definition CompareTo (this other : t) : Z :=
  CompareTo (FitnessValue this) (FitnessValue other).

End Def.
Arguments t : clear implicits.
End FitnessAssignedScores.

(** ** IObjectiveEvaluator *)

Module IObjectiveEvaluator.
Section Def.
Context {TSysConf : Type}.

(** A class deriving from [IObjectiveEvaluator<TSysConf>], with objects
    of state [Self]: it defines the pure virtual [EvaluateScore] and
    overrides the virtual [IsCloneable] or not. *)
Record class (Self : Type) : Type := {
  EvaluateScore : Self -> TSysConf -> IObjectiveScores.t TSysConf;
  IsCloneable_override : option (Self -> bool)
}.
Arguments EvaluateScore {Self} _ _ _.
Arguments IsCloneable_override {Self} _.

(** [virtual bool IsCloneable() { return false; }] *)
Definition IsCloneable_base {Self : Type} (this : Self) : bool := false.

(** A call [e.IsCloneable()] is dispatched to the override of the
    object's class when there is one, else to the base class. *)
Definition IsCloneable {Self : Type} (c : class Self) (this : Self) : bool :=
  match IsCloneable_override c with
  | Some f => f this
  | None => IsCloneable_base this
  end.

End Def.
Arguments class : clear implicits.
Arguments EvaluateScore {TSysConf Self} _ _ _.
Arguments IsCloneable_override {TSysConf Self} _.
End IObjectiveEvaluator.

(** ** IHyperCubeOperations *)

#[global] Instance double_eq_dec : EqDecision double.
Proof.
  intros x y. destruct (PrimFloat.Leibniz.eqb x y) eqn:E; [left | right].
  - by apply FloatAxioms.Leibniz.eqb_spec.
  - intros Hxy. apply FloatAxioms.Leibniz.eqb_spec in Hxy. congruence.
Defined.

Module IHyperCubeOperations.

(** The variable set of a hypercube with the (min, max) of each variable. *)
Definition bounds (p : HyperCube) : gmap string (double * double) :=
  (fun e => (Min e, Max e)) <$> def p.

(** The value a hypercube holds for a variable; read without inserting. *)
Definition value_of (name : string) (p : HyperCube) : option double :=
  Value <$> def p !! name.

(** [size_t] to [double]. *)
Definition double_of_size (n : nat) : double :=
  PrimFloat.of_uint63 (Uint63.of_Z (Z.of_nat n)).

(** Modelled from the spec: the arithmetic mean of the inputs' values,
    here their sum, added up from left to right, over their number. *)
Definition arithmetic_mean (vs : list double) : double :=
  (foldl PrimFloat.add 0 vs / double_of_size (length vs))%float.

(** Modelled from the spec: the precondition of [centroid(points)], that
    all inputs share an identical variable set with identical (min, max)
    per variable. *)
Definition one_geometry (points : list HyperCube) : Prop :=
  forall p q, p ∈ points -> q ∈ points -> bounds p = bounds q.

(** The check of that precondition against the first point [p]. *)
Definition same_geometry (p : HyperCube) (points : list HyperCube) : bool :=
  forallb (fun q => bool_decide (bounds q = bounds p)) points.

(** Modelled from the spec: the body of [GetCentroid], which core.h only
    declares ([virtual ... GetCentroid(...) = 0;] in
    [IHyperCubeOperations]) and no class under src/ defines.  After the
    specification of [centroid(points)]: EmptyInputError on no point,
    IncompatibleGeometryError unless all points have the same variables
    with the same (min, max), else a new hypercube with those bounds and,
    per variable, the arithmetic mean of the points' values. *)
Definition GetCentroid (points : list HyperCube) : exception + HyperCube :=
  match points with
  | [] => inl EmptyInputError
  | p :: ps =>
      if same_geometry p ps then
        inr {| def := map_imap (fun name e =>
                 Some {| Name := Name e; Min := Min e; Max := Max e;
                         Value := arithmetic_mean (omap (value_of name) points) |})
                 (def p) |}
      else inl IncompatibleGeometryError
  end.

End IHyperCubeOperations.

(** ** Sample inputs *)

(** Uninitialised memory that happens to hold 7, -3 and 42. *)
Definition stale_memory : Indeterminate :=
  {| indeterminate_Min := 7%float;
     indeterminate_Max := (-3)%float;
     indeterminate_Value := 42%float |}.

(** A hypercube holding x in [0, 10] with value 5. *)
Definition cube_x : HyperCube :=
  {| def := {[ "x" := MMV_new "x" 0%float 10%float 5%float ]} |}.

(** The same variable, holding 50, outside its bounds [0, 10]. *)
Definition cube_x_outside : HyperCube :=
  {| def := {[ "x" := MMV_new "x" 0%float 10%float 50%float ]} |}.

(** A target system seen as the parameters it exposes, by name. *)
Definition bindings : Type := gmap string double.

(** Two points with the bounds x in [0, 10] and y in [0, 2]. *)
Definition point_a : HyperCube :=
  {| def := <[ "y" := MMV_new "y" 0%float 2%float 0%float ]>
              {[ "x" := MMV_new "x" 0%float 10%float 0%float ]} |}.

Definition point_b : HyperCube :=
  {| def := <[ "y" := MMV_new "y" 0%float 2%float 2%float ]>
              {[ "x" := MMV_new "x" 0%float 10%float 10%float ]} |}.

(** A fitness type: the integers, compared the way [IComparable] asks. *)
Definition Z_CompareTo : IComparable Z :=
  fun x y => match (x ?= y)%Z with Lt => (-1)%Z | Eq => 0%Z | Gt => 1%Z end.

(** An evaluator class that defines [EvaluateScore] and nothing else. *)
Definition plain_evaluator : IObjectiveEvaluator.class HyperCube unit :=
  {| IObjectiveEvaluator.EvaluateScore := fun _ conf =>
       {| IObjectiveScores.ObjectiveCount := 0;
          IObjectiveScores.GetObjective := fun _ =>
            {| IObjectiveScore.Maximise := false;
               IObjectiveScore.GetText := "";
               IObjectiveScore.Name := "" |};
          IObjectiveScores.SystemConfiguration := conf |};
     IObjectiveEvaluator.IsCloneable_override := None |}.

(** * Properties of HyperCube *)

Section HyperCube_facts.
Context `{Indeterminate}.
Implicit Types (this : HyperCube) (name : string) (e : MMV).

Lemma subscript_Some name (m : gmap string MMV) e :
  m !! name = Some e -> subscript name m = (e, m).
Proof. intros Hm. unfold subscript. by rewrite Hm. Qed.

Lemma subscript_None name (m : gmap string MMV) :
  m !! name = None -> subscript name m = (MMV_default, <[name := MMV_default]> m).
Proof. intros Hm. unfold subscript. by rewrite Hm. Qed.

(** After [def[name]] the map has an entry for [name], the one yielded. *)
Lemma subscript_lookup name (m : gmap string MMV) :
  (subscript name m).2 !! name = Some (subscript name m).1.
Proof.
  unfold subscript. destruct (m !! name) as [e|] eqn:Hm; simpl.
  - done.
  - apply lookup_insert_eq.
Qed.

(** [Define] never looks at the numbers it stores: whatever the entry
    was, it is replaced by the new triple. *)
Lemma Define_unfold this name min max value :
  Define name min max value this
  = Returns tt {| def := <[name := MMV_new name min max value]> (def this) |}.
Proof.
  unfold Define, subscript. destruct (def this !! name); [done |].
  by rewrite insert_insert_eq.
Qed.

Lemma GetValue_defined this name e :
  def this !! name = Some e -> GetValue name this = Returns (Value e) this.
Proof. intros He. unfold GetValue. rewrite (subscript_Some _ _ _ He). by destruct this. Qed.

Lemma GetMinValue_defined this name e :
  def this !! name = Some e -> GetMinValue name this = Returns (Min e) this.
Proof. intros He. unfold GetMinValue. rewrite (subscript_Some _ _ _ He). by destruct this. Qed.

Lemma GetMaxValue_defined this name e :
  def this !! name = Some e -> GetMaxValue name this = Returns (Max e) this.
Proof. intros He. unfold GetMaxValue. rewrite (subscript_Some _ _ _ He). by destruct this. Qed.

(** C1: for every name and every (min, max, value) with min <= max,
    [Define(name, min, max, value)] followed by [GetValue(name)],
    [GetMinValue(name)] and [GetMaxValue(name)] returns exactly value,
    min and max; the three reads leave the hypercube as [Define] left it. *)
Theorem Define_then_get_roundtrip this name min max value :
  (min <=? max)%float = true ->
  (Define name min max value ;;
   v <- GetValue name ;;
   lo <- GetMinValue name ;;
   hi <- GetMaxValue name ;;
   ret (v, lo, hi))%method this
  = Returns (value, min, max)
      {| def := <[name := MMV_new name min max value]> (def this) |}.
Proof.
  intros _. unfold bind. rewrite Define_unfold.
  set (this' := {| def := _ |}).
  assert (Hx : def this' !! name = Some (MMV_new name min max value))
    by apply lookup_insert_eq.
  rewrite (GetValue_defined _ _ _ Hx), (GetMinValue_defined _ _ _ Hx),
    (GetMaxValue_defined _ _ _ Hx).
  reflexivity.
Qed.

(** C9: on a name that is not defined, [GetValue], [GetMinValue],
    [GetMaxValue], [SetValue], [SetMinValue] and [SetMaxValue] do not
    fail: each leaves a new entry under that name, default-constructed
    (and, for a setter, with the one member assigned), and [Dimensions]
    is one more than before. *)
Theorem access_undefined_inserts this name v :
  def this !! name = None ->
  GetValue name this
    = Returns (Value MMV_default) {| def := <[name := MMV_default]> (def this) |}
  /\ GetMinValue name this
    = Returns (Min MMV_default) {| def := <[name := MMV_default]> (def this) |}
  /\ GetMaxValue name this
    = Returns (Max MMV_default) {| def := <[name := MMV_default]> (def this) |}
  /\ SetValue name v this
    = Returns tt {| def := <[name := {| Name := ""; Min := indeterminate_Min;
                                        Max := indeterminate_Max; Value := v |}]> (def this) |}
  /\ SetMinValue name v this
    = Returns tt {| def := <[name := {| Name := ""; Min := v;
                                        Max := indeterminate_Max;
                                        Value := indeterminate_Value |}]> (def this) |}
  /\ SetMaxValue name v this
    = Returns tt {| def := <[name := {| Name := ""; Min := indeterminate_Min;
                                        Max := v;
                                        Value := indeterminate_Value |}]> (def this) |}
  /\ Forall (fun after => exists n,
               Dimensions this = Returns n this
               /\ Dimensions after = Returns (S n) after)
       [ final_state (GetValue name this); final_state (GetMinValue name this);
         final_state (GetMaxValue name this); final_state (SetValue name v this);
         final_state (SetMinValue name v this); final_state (SetMaxValue name v this) ].
Proof.
  intros Hnone.
  unfold GetValue, GetMinValue, GetMaxValue, SetValue, SetMinValue, SetMaxValue.
  rewrite (subscript_None _ _ Hnone). simpl. rewrite !insert_insert_eq.
  repeat split.
  repeat constructor; exists (size (def this)); unfold Dimensions; simpl;
    (split; [done |]); by rewrite map_size_insert_None.
Qed.

(** C3, as the code has it: on a name that is not defined, [GetValue],
    [GetMinValue], [GetMaxValue] and [SetValue] return normally and none
    fails with UnknownVariableError; a getter returns the member of a
    default-constructed entry, and after [SetValue(name, v)] the value
    read back is [v]. *)
Theorem undefined_name_is_not_an_error this name v :
  def this !! name = None ->
  (returns_normally (GetValue name this)
   /\ returns_normally (GetMinValue name this)
   /\ returns_normally (GetMaxValue name this)
   /\ returns_normally (SetValue name v this))
  /\ (~ fails_with UnknownVariableError (GetValue name this)
      /\ ~ fails_with UnknownVariableError (GetMinValue name this)
      /\ ~ fails_with UnknownVariableError (GetMaxValue name this)
      /\ ~ fails_with UnknownVariableError (SetValue name v this))
  /\ (exists after, GetValue name this = Returns indeterminate_Value after)
  /\ (exists after, GetMinValue name this = Returns indeterminate_Min after)
  /\ (exists after, GetMaxValue name this = Returns indeterminate_Max after)
  /\ (exists after, (SetValue name v ;; GetValue name)%method this = Returns v after).
Proof.
  intros Hnone.
  unfold bind, GetValue, GetMinValue, GetMaxValue, SetValue.
  rewrite (subscript_None _ _ Hnone). simpl.
  rewrite insert_insert_eq.
  rewrite (subscript_Some _ _ _ (lookup_insert_eq _ _ _)). simpl.
  repeat split; eauto.
Qed.

(** C2, as the code has it: no bound is ever checked.  With max < min,
    [Define] returns normally and stores the triple as given; and on a
    defined name, a [SetMinValue] above the stored max, or a
    [SetMaxValue] below the stored min, returns normally and stores the
    bound, the other members and the other variables being untouched. *)
Theorem bounds_are_never_checked this name min max value :
  (max <? min)%float = true ->
  Define name min max value this
    = Returns tt {| def := <[name := MMV_new name min max value]> (def this) |}
  /\ (forall e, def this !! name = Some e -> Max e = max ->
       SetMinValue name min this
       = Returns tt {| def := <[name := {| Name := Name e; Min := min;
                                           Max := max; Value := Value e |}]> (def this) |})
  /\ (forall e, def this !! name = Some e -> Min e = min ->
       SetMaxValue name max this
       = Returns tt {| def := <[name := {| Name := Name e; Min := min;
                                           Max := max; Value := Value e |}]> (def this) |}).
Proof.
  intros _. split; [apply Define_unfold |].
  split; intros e He <-; unfold SetMinValue, SetMaxValue;
    by rewrite (subscript_Some _ _ _ He).
Qed.

(** The three methods whose bodies do not read [def]. *)
Lemma GetVariableNames_unfold this : GetVariableNames this = Returns [] this.
Proof. reflexivity. Qed.

Lemma GetConfigurationDescription_unfold this :
  GetConfigurationDescription this = Returns "" this.
Proof. reflexivity. Qed.

Lemma ApplyConfiguration_unfold {System : Type} this (system : System) :
  ApplyConfiguration (this, system) = Returns tt (this, system).
Proof. reflexivity. Qed.

(** X13: [Dimensions] counts the definitions: after [Define] on [n]
    distinct names, none defined before, it has grown by [n]. *)
Lemma Define_each_Dimensions vars this :
  NoDup vars.*1 ->
  (forall name, name ∈ vars.*1 -> def this !! name = None) ->
  exists after,
    Define_each vars this = Returns tt after
    /\ Dimensions after = Returns (size (def this) + length vars) after.
Proof.
  revert this. induction vars as [| [name [[min max] value]] vars IH];
    intros this Hnodup Hfresh.
  - exists this. split; [done |]. unfold Dimensions. by rewrite Nat.add_0_r.
  - apply NoDup_cons in Hnodup as [Hname Hnodup].
    destruct (IH {| def := <[name := MMV_new name min max value]> (def this) |}
                Hnodup) as (after & Hrun & Hdim).
    { intros name' Hin. simpl. rewrite lookup_insert_ne.
      - apply Hfresh. simpl. by right.
      - intros ->. by apply Hname. }
    exists after. split.
    + simpl. unfold bind. by rewrite Define_unfold.
    + rewrite Hdim. simpl. rewrite map_size_insert_None.
      * f_equal. lia.
      * apply Hfresh. simpl. by left.
Qed.

(** Whatever was defined, [GetVariableNames] yields no name. *)
Lemma Define_each_GetVariableNames vars this :
  exists after,
    (Define_each vars ;; GetVariableNames)%method this = Returns [] after.
Proof.
  revert this. induction vars as [| [name [[min max] value]] vars IH]; intros this.
  - by exists this.
  - destruct (IH {| def := <[name := MMV_new name min max value]> (def this) |})
      as (after & Hrun).
    exists after. revert Hrun. simpl. unfold bind. by rewrite Define_unfold.
Qed.

End HyperCube_facts.

(** The properties above on concrete hypercubes, with [stale_memory]
    as the content of uninitialised doubles. *)
Section HyperCube_examples.
#[local] Existing Instance stale_memory.

(** C1 at x in [0, 10] with value 5, defined on a new hypercube. *)
Lemma Define_then_get_roundtrip_witness :
  (0 <=? 10)%float = true
  /\ (Define "x" 0 10 5 ;;
      v <- GetValue "x" ;;
      lo <- GetMinValue "x" ;;
      hi <- GetMaxValue "x" ;;
      ret (v, lo, hi))%method HyperCube_new
     = Returns (5%float, 0%float, 10%float) cube_x.
Proof.
  split; [reflexivity |].
  apply (@Define_then_get_roundtrip stale_memory HyperCube_new "x" 0 10 5).
  reflexivity.
Defined.

(** C9 at the name "y", which [cube_x] does not define. *)
Lemma access_undefined_inserts_witness :
  def cube_x !! "y" = None
  /\ GetValue "y" cube_x
     = Returns 42%float {| def := <["y" := MMV_default]> (def cube_x) |}
  /\ Dimensions cube_x = Returns 1 cube_x
  /\ (GetValue "y" ;; Dimensions)%method cube_x
     = Returns 2 {| def := <["y" := MMV_default]> (def cube_x) |}.
Proof.
  split; [reflexivity |].
  destruct (@access_undefined_inserts stale_memory cube_x "y" 1%float eq_refl)
    as (Hget & _).
  split; [exact Hget |].
  split; [reflexivity |].
  unfold bind. rewrite Hget. reflexivity.
Defined.

(** C3 refuted: "y" is not defined in [cube_x], and [GetValue("y")] does
    not fail with UnknownVariableError; it returns what the fresh entry
    holds, and the hypercube has grown. *)
Lemma undefined_name_counterexample :
  def cube_x !! "y" = None
  /\ ~ fails_with UnknownVariableError (GetValue "y" cube_x)
  /\ GetValue "y" cube_x
     = Returns 42%float {| def := <["y" := MMV_default]> (def cube_x) |}.
Proof. split; [reflexivity |]. split; [intros [] | reflexivity]. Qed.

(** The amended C3 at the name "y" of [cube_x]. *)
Lemma undefined_name_is_not_an_error_witness :
  def cube_x !! "y" = None
  /\ returns_normally (GetValue "y" cube_x)
  /\ ~ fails_with UnknownVariableError (SetValue "y" 1 cube_x).
Proof.
  split; [reflexivity |].
  destruct (@undefined_name_is_not_an_error stale_memory cube_x "y" 1%float eq_refl)
    as ((Hret & _) & (_ & _ & _ & Hset) & _).
  split; [exact Hret | exact Hset].
Defined.

(** C2 refuted: with min = 10 above max = 0, [Define] on [cube_x] does
    not fail with DomainError, and the triple x had before is gone. *)
Lemma Define_min_above_max_counterexample :
  (0 <? 10)%float = true
  /\ def cube_x !! "x" = Some (MMV_new "x" 0 10 5)
  /\ ~ fails_with DomainError (Define "x" 10 0 5 cube_x)
  /\ Define "x" 10 0 5 cube_x
     = Returns tt {| def := {[ "x" := MMV_new "x" 10 0 5 ]} |}
  /\ def (final_state (Define "x" 10 0 5 cube_x)) !! "x"
     = Some (MMV_new "x" 10 0 5).
Proof.
  split; [reflexivity |]. split; [reflexivity |].
  split; [intros [] |]. split; reflexivity.
Qed.

(** The amended C2 on [cube_x], with min = 20 above the stored max 10. *)
Lemma bounds_are_never_checked_witness :
  (10 <? 20)%float = true
  /\ SetMinValue "x" 20 cube_x
     = Returns tt {| def := {[ "x" := MMV_new "x" 20 10 5 ]} |}.
Proof.
  split; [reflexivity |].
  destruct (@bounds_are_never_checked stale_memory cube_x "x" 20%float 10%float 5%float
              eq_refl) as (_ & Hmin & _).
  rewrite (Hmin (MMV_new "x" 0 10 5) eq_refl eq_refl). reflexivity.
Defined.

(** C4 on the code: after [Define] of x and of y on a new hypercube,
    [Dimensions] returns 2 and [GetVariableNames] returns no name at
    all, where the specification has it return x and y. *)
Theorem GetVariableNames_after_two_Define :
  (Define "x" 0 10 5 ;;
   Define "y" (-1) 1 0 ;;
   names <- GetVariableNames ;;
   n <- Dimensions ;;
   ret (names, n))%method HyperCube_new
  = Returns ([], 2)
      {| def := <[ "y" := MMV_new "y" (-1) 1 0 ]> {[ "x" := MMV_new "x" 0 10 5 ]} |}.
Proof. reflexivity. Qed.

(** C5 on the code: with x in [0, 10] at 5 and y in [-1, 1] at 0
    defined, [GetConfigurationDescription] returns the empty string,
    which names neither variable; the specification has it equivalent
    to "x=5;y=0". *)
Theorem GetConfigurationDescription_after_two_Define :
  (Define "x" 0 10 5 ;;
   Define "y" (-1) 1 0 ;;
   GetConfigurationDescription)%method HyperCube_new
  = Returns ""
      {| def := <[ "y" := MMV_new "y" (-1) 1 0 ]> {[ "x" := MMV_new "x" 0 10 5 ]} |}
  /\ "" <> "x=5;y=0"
  /\ GetConfigurationDescription HyperCube_new
     = Returns "" HyperCube_new.
Proof. repeat split. discriminate. Qed.

(** C6 on the code: [ApplyConfiguration] returns normally and changes
    nothing, on a target that lacks the variable x, on a value (50)
    outside its bounds [0, 10], and on a target that has x, where the
    specification has the current value 5 bound onto it. *)
Theorem ApplyConfiguration_never_fails_nor_binds :
  ApplyConfiguration (cube_x, (∅ : bindings)) = Returns tt (cube_x, ∅)
  /\ ApplyConfiguration (cube_x_outside, ({[ "x" := 1%float ]} : bindings))
     = Returns tt (cube_x_outside, {[ "x" := 1%float ]})
  /\ ApplyConfiguration (cube_x, ({[ "x" := 1%float ]} : bindings))
     = Returns tt (cube_x, {[ "x" := 1%float ]})
  /\ (10 <? 50)%float = true.
Proof. repeat split. Qed.

End HyperCube_examples.

(** * Properties of FitnessAssignedScores *)

Section FitnessAssignedScores_facts.
Context {T TSys : Type} `{IComparable T}.
Implicit Types a b c : FitnessAssignedScores.t T TSys.

(** The comparison reads the two fitness values and nothing else. *)
Lemma CompareTo_unfold a b :
  FitnessAssignedScores.CompareTo a b
  = CompareTo (FitnessAssignedScores.FitnessValue a)
              (FitnessAssignedScores.FitnessValue b).
Proof. reflexivity. Qed.

Lemma CompareTo_ignores_Scores (scores scores' : pointer (IObjectiveScores.t TSys)) (x y : T) :
  FitnessAssignedScores.CompareTo
    (FitnessAssignedScores.new scores x) (FitnessAssignedScores.new scores' y)
  = CompareTo x y.
Proof. reflexivity. Qed.

(** C8: with a fitness type whose [CompareTo] follows its numeric order
    [lt], the order [CompareTo] gives on FitnessAssignedScores depends
    on the two fitness values alone (replacing the carried scores
    changes nothing), agrees with the numeric order of the fitness
    values, makes equal fitness values ties, and is transitive. *)
Theorem CompareTo_is_the_order_of_fitness
    (lt : T -> T -> Prop) `{!NumericCompare T lt} a b c :
  (forall a' b',
      FitnessAssignedScores.FitnessValue a' = FitnessAssignedScores.FitnessValue a ->
      FitnessAssignedScores.FitnessValue b' = FitnessAssignedScores.FitnessValue b ->
      FitnessAssignedScores.CompareTo a' b' = FitnessAssignedScores.CompareTo a b)
  /\ ((FitnessAssignedScores.CompareTo a b < 0)%Z
      <-> lt (FitnessAssignedScores.FitnessValue a) (FitnessAssignedScores.FitnessValue b))
  /\ ((0 < FitnessAssignedScores.CompareTo a b)%Z
      <-> lt (FitnessAssignedScores.FitnessValue b) (FitnessAssignedScores.FitnessValue a))
  /\ (FitnessAssignedScores.CompareTo a b = 0%Z
      <-> FitnessAssignedScores.FitnessValue a = FitnessAssignedScores.FitnessValue b)
  /\ ((FitnessAssignedScores.CompareTo a b < 0)%Z ->
      (FitnessAssignedScores.CompareTo b c < 0)%Z ->
      (FitnessAssignedScores.CompareTo a c < 0)%Z)
  /\ ((0 < FitnessAssignedScores.CompareTo a b)%Z ->
      (0 < FitnessAssignedScores.CompareTo b c)%Z ->
      (0 < FitnessAssignedScores.CompareTo a c)%Z)
  /\ (FitnessAssignedScores.CompareTo a b = 0%Z ->
      FitnessAssignedScores.CompareTo b c = 0%Z ->
      FitnessAssignedScores.CompareTo a c = 0%Z).
Proof.
  rewrite !CompareTo_unfold.
  split; [| split; [| split; [| split; [| split; [| split]]]]].
  - intros a' b' Ha Hb. rewrite !CompareTo_unfold. by rewrite Ha, Hb.
  - apply CompareTo_neg.
  - apply CompareTo_pos.
  - apply CompareTo_zero.
  - rewrite !CompareTo_neg. apply lt_trans.
  - rewrite !CompareTo_pos. intros Hba Hcb. exact (lt_trans _ _ _ Hcb Hba).
  - rewrite !CompareTo_zero. congruence.
Qed.

End FitnessAssignedScores_facts.

(** The integers under [Z_CompareTo] follow their numeric order. *)
Lemma Z_CompareTo_numeric : @NumericCompare Z Z_CompareTo Z.lt.
Proof.
  split.
  - intros x y z. apply Z.lt_trans.
  - intros x y. unfold CompareTo, Z_CompareTo.
    destruct (Z.compare_spec x y); split; intros; lia.
  - intros x y. unfold CompareTo, Z_CompareTo.
    destruct (Z.compare_spec x y); split; intros; lia.
  - intros x y. unfold CompareTo, Z_CompareTo.
    destruct (Z.compare_spec x y); split; intros; lia.
Qed.

(** C8 at fitness values 1, 2 and 3 carried with no scores. *)
Lemma CompareTo_is_the_order_of_fitness_witness :
  let a := @FitnessAssignedScores.new Z HyperCube None 1%Z in
  let b := @FitnessAssignedScores.new Z HyperCube None 2%Z in
  let c := @FitnessAssignedScores.new Z HyperCube None 3%Z in
  ((FitnessAssignedScores.CompareTo (H := Z_CompareTo) a b < 0)%Z <-> (1 < 2)%Z)
  /\ (FitnessAssignedScores.CompareTo (H := Z_CompareTo) a c < 0)%Z.
Proof.
  intros a b c.
  destruct (@CompareTo_is_the_order_of_fitness Z HyperCube Z_CompareTo Z.lt
              Z_CompareTo_numeric a b c) as (_ & Hlt & _ & _ & Htrans & _).
  split; [exact Hlt |].
  apply Htrans; reflexivity.
Defined.

(** * Properties of IObjectiveEvaluator *)

(** C10: an evaluator whose class does not override [IsCloneable]
    answers false. *)
Theorem IsCloneable_false_by_default {TSysConf Self : Type}
    (c : IObjectiveEvaluator.class TSysConf Self) (this : Self) :
  IObjectiveEvaluator.IsCloneable_override c = None ->
  IObjectiveEvaluator.IsCloneable c this = false.
Proof.
  intros Hnone. unfold IObjectiveEvaluator.IsCloneable. by rewrite Hnone.
Qed.

(** An override is what the call returns when there is one. *)
Lemma IsCloneable_overridden {TSysConf Self : Type}
    (c : IObjectiveEvaluator.class TSysConf Self) (this : Self) f :
  IObjectiveEvaluator.IsCloneable_override c = Some f ->
  IObjectiveEvaluator.IsCloneable c this = f this.
Proof.
  intros Hsome. unfold IObjectiveEvaluator.IsCloneable. by rewrite Hsome.
Qed.

(** C10 at [plain_evaluator]. *)
Lemma IsCloneable_false_by_default_witness :
  IObjectiveEvaluator.IsCloneable_override plain_evaluator = None
  /\ IObjectiveEvaluator.IsCloneable plain_evaluator tt = false.
Proof.
  split; [reflexivity |].
  apply (IsCloneable_false_by_default plain_evaluator tt). reflexivity.
Defined.

(** * Properties of GetCentroid *)

Section GetCentroid_facts.
Context `{Indeterminate}.
Import IHyperCubeOperations.
Implicit Types (p q : HyperCube) (points : list HyperCube) (name : string).

Lemma same_geometry_true p points :
  same_geometry p points = true <-> forall q, q ∈ points -> bounds q = bounds p.
Proof.
  unfold same_geometry. rewrite forallb_forall. split.
  - intros Hall q Hq. apply list_elem_of_In, Hall in Hq.
    by apply bool_decide_eq_true in Hq.
  - intros Hall q Hq. apply bool_decide_eq_true, Hall. by apply list_elem_of_In.
Qed.

Lemma same_geometry_one_geometry p points :
  same_geometry p points = true <-> one_geometry (p :: points).
Proof.
  rewrite same_geometry_true. split.
  - intros Hall a b Ha Hb.
    assert (Hto_p : forall c, c ∈ p :: points -> bounds c = bounds p).
    { intros c [-> | Hc]%elem_of_cons; [done | by apply Hall]. }
    by rewrite (Hto_p a Ha), (Hto_p b Hb).
  - intros Hone q Hq. apply Hone; [by right | by left].
Qed.

Lemma bounds_lookup p name :
  bounds p !! name = (fun e => (Min e, Max e)) <$> def p !! name.
Proof. unfold bounds. apply lookup_fmap. Qed.

Lemma bounds_defined p q name :
  bounds p = bounds q -> is_Some (def p !! name) -> is_Some (def q !! name).
Proof.
  intros Hpq [e He].
  assert (Hq : bounds q !! name = Some (Min e, Max e))
    by (by rewrite <- Hpq, bounds_lookup, He).
  rewrite bounds_lookup in Hq. destruct (def q !! name); [by eexists | done].
Qed.

(** Reading the values of a variable that every point defines: [GetValue]
    returns them, inserts nothing, and they are what [value_of] collects. *)
Lemma GetValue_each points name :
  (forall q, q ∈ points -> is_Some (def q !! name)) ->
  Forall2 (fun q v => GetValue name q = Returns v q)
          points (omap (value_of name) points).
Proof.
  induction points as [| q points IH]; intros Hdef; [constructor |].
  destruct (Hdef q) as [e He]; [by left |].
  simpl. unfold value_of at 1. rewrite He. simpl. constructor.
  - by apply GetValue_defined.
  - apply IH. intros q' Hq'. apply Hdef. by right.
Qed.

(** C7: [GetCentroid] fails with EmptyInputError on no point and with
    IncompatibleGeometryError on points that do not all have the same
    variables with the same (min, max); on a non-empty list of points of
    one geometry it returns a hypercube with those bounds in which
    [GetValue], for each variable, returns the arithmetic mean of what
    [GetValue] returns for that variable on the points. *)
Theorem GetCentroid_spec points :
  (points = [] -> GetCentroid points = inl EmptyInputError)
  /\ (points <> [] -> ~ one_geometry points ->
      GetCentroid points = inl IncompatibleGeometryError)
  /\ (points <> [] -> one_geometry points ->
      exists c,
        GetCentroid points = inr c
        /\ (forall p, p ∈ points -> bounds c = bounds p)
        /\ (forall name, is_Some (def c !! name) ->
            exists values,
              Forall2 (fun p v => GetValue name p = Returns v p) points values
              /\ GetValue name c = Returns (arithmetic_mean values) c)).
Proof.
  split; [by intros -> |].
  destruct points as [| p ps]; [split; intros Hne; by destruct Hne |].
  split; intros _ Hgeo.
  - unfold GetCentroid.
    destruct (same_geometry p ps) eqn:Hsame; [| done].
    by apply same_geometry_one_geometry in Hsame.
  - unfold GetCentroid.
    rewrite (proj2 (same_geometry_one_geometry p ps) Hgeo).
    eexists. split; [reflexivity |].
    set (c := {| def := _ |}).
    assert (Hc : bounds c = bounds p).
    { apply map_eq. intros name. rewrite !bounds_lookup. unfold c. simpl.
      rewrite map_lookup_imap. by destruct (def p !! name). }
    split.
    + intros q Hq. rewrite Hc. apply Hgeo; [by left | done].
    + intros name Hname.
      exists (omap (value_of name) (p :: ps)). split.
      * apply GetValue_each. intros q Hq.
        apply (bounds_defined c q); [| done].
        rewrite Hc. apply Hgeo; [by left | done].
      * destruct Hname as [e He].
        rewrite (GetValue_defined _ _ _ He). f_equal.
        revert He. unfold c. simpl. rewrite map_lookup_imap.
        destruct (def p !! name); simpl; [| done]. by intros [= <-].
Qed.

End GetCentroid_facts.

Section GetCentroid_examples.
#[local] Existing Instance stale_memory.
Import IHyperCubeOperations.

(** The centroid of (x=0, y=0) and (x=10, y=2) is (x=5, y=1). *)
Example GetCentroid_of_two_points :
  GetCentroid [point_a; point_b]
  = inr {| def := <[ "y" := MMV_new "y" 0 2 1 ]> {[ "x" := MMV_new "x" 0 10 5 ]} |}.
Proof. vm_compute. reflexivity. Qed.

(** Bounds that differ are refused: [cube_x] has no y. *)
Example GetCentroid_mismatch :
  GetCentroid [point_a; cube_x] = inl IncompatibleGeometryError.
Proof. vm_compute. reflexivity. Qed.

(** C7 at the two points above. *)
Lemma GetCentroid_spec_witness :
  [point_a; point_b] <> []
  /\ one_geometry [point_a; point_b]
  /\ exists c,
       GetCentroid [point_a; point_b] = inr c
       /\ bounds c = bounds point_a
       /\ GetValue "x" c = Returns 5%float c
       /\ GetValue "y" c = Returns 1%float c.
Proof.
  assert (Hne : [point_a; point_b] <> []) by discriminate.
  assert (Hgeo : one_geometry [point_a; point_b]).
  { intros p q Hp Hq.
    assert (Hto_a : forall r, r ∈ [point_a; point_b] -> bounds r = bounds point_a).
    { intros r Hr. apply elem_of_cons in Hr as [-> | Hr]; [reflexivity |].
      apply list_elem_of_singleton in Hr as ->. vm_compute. reflexivity. }
    by rewrite (Hto_a p Hp), (Hto_a q Hq). }
  split; [exact Hne |]. split; [exact Hgeo |].
  destruct (GetCentroid_spec [point_a; point_b]) as (_ & _ & Hmean).
  destruct (Hmean Hne Hgeo) as (c & Hrun & Hbounds & _).
  exists c. split; [exact Hrun |]. split; [apply Hbounds; by left |].
  assert (Hc : c = {| def := <[ "y" := MMV_new "y" 0 2 1 ]>
                             {[ "x" := MMV_new "x" 0 10 5 ]} |}).
  { rewrite GetCentroid_of_two_points in Hrun. by injection Hrun. }
  rewrite Hc. split; vm_compute; reflexivity.
Defined.

End GetCentroid_examples.

(** * How the methods of HyperCube compose *)

Section HyperCube_calls.
Context `{Indeterminate}.
Implicit Types (this : HyperCube) (name other : string) (e : MMV) (c : call).

Lemma entry_defined this name e : def this !! name = Some e -> entry name this = e.
Proof. intros He. unfold entry. by rewrite (subscript_Some _ _ _ He). Qed.

Lemma entry_store this name e :
  entry name {| def := <[name := e]> (def this) |} = e.
Proof. apply entry_defined, lookup_insert_eq. Qed.

Lemma entry_store_ne this name other e :
  name <> other ->
  entry other {| def := <[name := e]> (def this) |} = entry other this.
Proof.
  intros Hne. unfold entry, subscript. simpl.
  rewrite lookup_insert_ne by done. by destruct (def this !! other).
Qed.

(** Every call that names a variable stores an entry under that name,
    made from the entry [def[name]] refers to; the other calls change
    nothing. *)
Lemma perform_unfold c this :
  perform c this
  = match call_name c with
    | Some name => {| def := <[name := call_update c (entry name this)]> (def this) |}
    | None => this
    end.
Proof.
  destruct c; simpl; try reflexivity;
    unfold Define, GetValue, GetMaxValue, GetMinValue,
      SetValue, SetMinValue, SetMaxValue, entry, subscript;
    match goal with |- context [def this !! ?n] =>
      destruct (def this !! n) as [e|] eqn:He end; simpl;
    rewrite ?insert_insert_eq; try reflexivity;
    rewrite (insert_id _ _ _ He); by destruct this.
Qed.

Lemma perform_lookup c this name :
  call_name c = Some name ->
  def (perform c this) !! name = Some (call_update c (entry name this)).
Proof. intros Hc. rewrite perform_unfold, Hc. apply lookup_insert_eq. Qed.

Lemma perform_lookup_ne c this other :
  call_name c <> Some other -> def (perform c this) !! other = def this !! other.
Proof.
  intros Hc. rewrite perform_unfold. destruct (call_name c) as [name|]; [| done].
  simpl. apply lookup_insert_ne. congruence.
Qed.

Lemma perform_dom c this :
  dom (def (perform c this))
  = dom (def this) ∪ match call_name c with Some name => {[name]} | None => ∅ end.
Proof.
  rewrite perform_unfold. destruct (call_name c) as [name|]; simpl.
  - rewrite dom_insert_L. apply (comm_L (∪)).
  - by rewrite (right_id_L ∅ (∪)).
Qed.

(** The outcome of each method that names a variable, by the entry it
    works on. *)
Lemma Define_perform name min max value this :
  Define name min max value this
  = Returns tt (perform (Call_Define name min max value) this).
Proof. unfold perform. by rewrite Define_unfold. Qed.

Lemma GetValue_perform name this :
  GetValue name this
  = Returns (Value (entry name this)) (perform (Call_GetValue name) this).
Proof. unfold perform, GetValue, entry. by destruct (subscript name (def this)). Qed.

Lemma GetMinValue_perform name this :
  GetMinValue name this
  = Returns (Min (entry name this)) (perform (Call_GetMinValue name) this).
Proof. unfold perform, GetMinValue, entry. by destruct (subscript name (def this)). Qed.

Lemma GetMaxValue_perform name this :
  GetMaxValue name this
  = Returns (Max (entry name this)) (perform (Call_GetMaxValue name) this).
Proof. unfold perform, GetMaxValue, entry. by destruct (subscript name (def this)). Qed.

Lemma SetValue_perform name v this :
  SetValue name v this = Returns tt (perform (Call_SetValue name v) this).
Proof. unfold perform, SetValue. by destruct (subscript name (def this)). Qed.

Lemma SetMinValue_perform name v this :
  SetMinValue name v this = Returns tt (perform (Call_SetMinValue name v) this).
Proof. unfold perform, SetMinValue. by destruct (subscript name (def this)). Qed.

Lemma SetMaxValue_perform name v this :
  SetMaxValue name v this = Returns tt (perform (Call_SetMaxValue name v) this).
Proof. unfold perform, SetMaxValue. by destruct (subscript name (def this)). Qed.

(** The three getters on a variable whose entry is known. *)
Lemma getters_defined this name e :
  def this !! name = Some e ->
  (x <- GetValue name ;; lo <- GetMinValue name ;; hi <- GetMaxValue name ;;
   ret (x, lo, hi))%method this
  = Returns (Value e, Min e, Max e) this.
Proof.
  intros He. unfold bind.
  by rewrite (GetValue_defined _ _ _ He), (GetMinValue_defined _ _ _ He),
    (GetMaxValue_defined _ _ _ He).
Qed.

(** X1: [Define] makes up for whatever was done before to the variable
    it names: after any call on that variable, defining, reading or
    setting, it leaves the hypercube that it leaves without that call. *)
Theorem Define_absorbs_earlier_call c this name min max value :
  call_name c = Some name ->
  Define name min max value (perform c this) = Define name min max value this.
Proof.
  intros Hc. rewrite !Define_unfold, (perform_unfold c), Hc. simpl.
  by rewrite insert_insert_eq.
Qed.

(** X2: what a setter stores is what the matching getter returns next,
    on every name, defined or not, and whatever the bounds are: [SetValue]
    takes a value outside [min, max], [SetMinValue] one above the max. *)
Theorem setter_then_getter this name v :
  (SetValue name v ;; GetValue name)%method this
    = Returns v (perform (Call_SetValue name v) this)
  /\ (SetMinValue name v ;; GetMinValue name)%method this
    = Returns v (perform (Call_SetMinValue name v) this)
  /\ (SetMaxValue name v ;; GetMaxValue name)%method this
    = Returns v (perform (Call_SetMaxValue name v) this).
Proof.
  unfold bind.
  rewrite SetValue_perform, SetMinValue_perform, SetMaxValue_perform.
  rewrite (GetValue_defined _ _ _ (perform_lookup (Call_SetValue name v) _ _ eq_refl)),
    (GetMinValue_defined _ _ _ (perform_lookup (Call_SetMinValue name v) _ _ eq_refl)),
    (GetMaxValue_defined _ _ _ (perform_lookup (Call_SetMaxValue name v) _ _ eq_refl)).
  done.
Qed.

(** X3: on a defined variable each setter changes the one member it is
    named after: read back, the other two members are as before. *)
Theorem setter_changes_one_member this name e v :
  def this !! name = Some e ->
  (SetValue name v ;;
   x <- GetValue name ;; lo <- GetMinValue name ;; hi <- GetMaxValue name ;;
   ret (x, lo, hi))%method this
    = Returns (v, Min e, Max e) (perform (Call_SetValue name v) this)
  /\ (SetMinValue name v ;;
      x <- GetValue name ;; lo <- GetMinValue name ;; hi <- GetMaxValue name ;;
      ret (x, lo, hi))%method this
    = Returns (Value e, v, Max e) (perform (Call_SetMinValue name v) this)
  /\ (SetMaxValue name v ;;
      x <- GetValue name ;; lo <- GetMinValue name ;; hi <- GetMaxValue name ;;
      ret (x, lo, hi))%method this
    = Returns (Value e, Min e, v) (perform (Call_SetMaxValue name v) this).
Proof.
  intros He. unfold bind at 1 5 9.
  rewrite SetValue_perform, SetMinValue_perform, SetMaxValue_perform.
  rewrite (getters_defined _ _ _ (perform_lookup (Call_SetValue name v) _ _ eq_refl)),
    (getters_defined _ _ _ (perform_lookup (Call_SetMinValue name v) _ _ eq_refl)),
    (getters_defined _ _ _ (perform_lookup (Call_SetMaxValue name v) _ _ eq_refl)).
  by rewrite (entry_defined _ _ _ He).
Qed.

(** X4: on a defined variable the three getters return the stored
    members and leave the hypercube, and so [Dimensions], as they were. *)
Theorem getters_leave_defined_variable this name e :
  def this !! name = Some e ->
  GetValue name this = Returns (Value e) this
  /\ GetMinValue name this = Returns (Min e) this
  /\ GetMaxValue name this = Returns (Max e) this
  /\ (GetValue name ;; GetMinValue name ;; GetMaxValue name ;; Dimensions)%method this
     = Dimensions this.
Proof.
  intros He. unfold bind.
  rewrite (GetValue_defined _ _ _ He), (GetMinValue_defined _ _ _ He),
    (GetMaxValue_defined _ _ _ He).
  done.
Qed.

(** X5: a read repeated returns what the first read returned and changes
    nothing more, on every name: once a getter has run, the variable is
    defined and the hypercube is a fixed point of the three getters. *)
Theorem second_read_is_stable this name :
  exists x lo hi after,
    (GetValue name this = Returns x after /\ GetValue name after = Returns x after)
    /\ (GetMinValue name this = Returns lo after
        /\ GetMinValue name after = Returns lo after)
    /\ (GetMaxValue name this = Returns hi after
        /\ GetMaxValue name after = Returns hi after).
Proof.
  exists (Value (entry name this)), (Min (entry name this)), (Max (entry name this)),
    (perform (Call_GetValue name) this).
  assert (Hafter : def (perform (Call_GetValue name) this) !! name
                   = Some (entry name this)) by by rewrite perform_lookup.
  rewrite GetValue_perform, GetMinValue_perform, GetMaxValue_perform.
  rewrite (GetValue_defined _ _ _ Hafter), (GetMinValue_defined _ _ _ Hafter),
    (GetMaxValue_defined _ _ _ Hafter).
  rewrite !perform_unfold. done.
Qed.

Lemma perform_all_cons c cs this :
  perform_all (c :: cs) this = perform_all cs (perform c this).
Proof. reflexivity. Qed.

Lemma perform_all_dom cs this :
  dom (def (perform_all cs this))
  = dom (def this) ∪ list_to_set (omap call_name cs).
Proof.
  revert this. induction cs as [| c cs IH]; intros this.
  - simpl. by rewrite (right_id_L ∅ (∪)).
  - rewrite perform_all_cons, IH, perform_dom. simpl.
    destruct (call_name c) as [name|]; simpl.
    + by rewrite (assoc_L (∪)).
    + by rewrite (right_id_L ∅ (∪)).
Qed.

(** X6: after any sequence of calls the variables of the hypercube are
    those it had together with every name a call was given, whether the
    call defined, set or only read it; [Dimensions] counts them all. *)
Theorem calls_define_what_they_name cs this :
  dom (def (perform_all cs this))
    = dom (def this) ∪ list_to_set (omap call_name cs)
  /\ Dimensions (perform_all cs this)
    = Returns (size (dom (def this) ∪ list_to_set (C := gset string) (omap call_name cs)))
        (perform_all cs this).
Proof.
  split; [apply perform_all_dom |].
  unfold Dimensions. by rewrite <- perform_all_dom, size_dom.
Qed.

Lemma perform_size c this :
  size (def this) <= size (def (perform c this)) <= S (size (def this)).
Proof.
  rewrite perform_unfold. destruct (call_name c) as [name|]; simpl; [| lia].
  rewrite map_size_insert. destruct (def this !! name); simpl; lia.
Qed.

(** X7: no call removes a variable, and each call adds at most one:
    a variable defined before a sequence of calls is defined after it,
    and [Dimensions] grows by at most the number of calls. *)
Theorem calls_never_remove cs this :
  (forall name, is_Some (def this !! name) ->
                is_Some (def (perform_all cs this) !! name))
  /\ exists n n',
       Dimensions this = Returns n this
       /\ Dimensions (perform_all cs this) = Returns n' (perform_all cs this)
       /\ n <= n' <= n + length cs.
Proof.
  split.
  - intros name Hname. apply elem_of_dom.
    rewrite perform_all_dom.
    apply elem_of_union_l. by apply elem_of_dom.
  - exists (size (def this)), (size (def (perform_all cs this))).
    split; [done |]. split; [done |].
    revert this. induction cs as [| c cs IH]; intros this.
    + simpl. lia.
    + rewrite perform_all_cons. specialize (IH (perform c this)).
      pose proof (perform_size c this). simpl. lia.
Qed.

(** X8: a variable that no call of a sequence names is left alone: its
    entry is the one it had, and if it was defined the getters return
    its members as before. *)
Theorem calls_leave_other_variables cs this other :
  Some other ∉ (call_name <$> cs) ->
  def (perform_all cs this) !! other = def this !! other
  /\ forall e, def this !! other = Some e ->
       (x <- GetValue other ;; lo <- GetMinValue other ;; hi <- GetMaxValue other ;;
        ret (x, lo, hi))%method (perform_all cs this)
       = Returns (Value e, Min e, Max e) (perform_all cs this).
Proof.
  intros Hother.
  assert (Hsame : def (perform_all cs this) !! other = def this !! other).
  { revert this Hother. induction cs as [| c cs IH]; intros this Hother; [done |].
    rewrite fmap_cons in Hother. apply not_elem_of_cons in Hother as [Hc Hcs].
    rewrite perform_all_cons, (IH _ Hcs). apply perform_lookup_ne. congruence. }
  split; [exact Hsame |].
  intros e He. apply getters_defined. by rewrite Hsame.
Qed.

(** X9: two calls that name different variables, or of which one names
    none, can be performed in either order, when neither reads an
    uninitialised member. *)
Theorem calls_on_different_variables_commute c1 c2 this :
  (forall name, call_name c1 = Some name -> call_name c2 <> Some name) ->
  settled c1 this -> settled c2 this ->
  perform c2 (perform c1 this) = perform c1 (perform c2 this).
Proof.
  intros Hne _ _. rewrite !perform_unfold.
  destruct (call_name c1) as [n1|] eqn:H1, (call_name c2) as [n2|] eqn:H2;
    simpl; rewrite ?H1, ?H2; try reflexivity.
  assert (n1 <> n2) by (intros ->; by apply (Hne n2)).
  rewrite entry_store_ne, (entry_store_ne _ n2 n1) by done.
  f_equal. by apply insert_insert_ne.
Qed.

(** X10: on a defined variable, of two calls of one setter the later
    wins, two different setters can be called in either order, and the
    three setters together leave the very triple they were given. *)
Theorem setters_on_one_variable this name e lo hi v w :
  def this !! name = Some e ->
  ((SetValue name w ;; SetValue name v)%method this = SetValue name v this
   /\ (SetMinValue name w ;; SetMinValue name lo)%method this = SetMinValue name lo this
   /\ (SetMaxValue name w ;; SetMaxValue name hi)%method this = SetMaxValue name hi this)
  /\ ((SetMinValue name lo ;; SetMaxValue name hi)%method this
        = (SetMaxValue name hi ;; SetMinValue name lo)%method this
      /\ (SetMinValue name lo ;; SetValue name v)%method this
        = (SetValue name v ;; SetMinValue name lo)%method this
      /\ (SetMaxValue name hi ;; SetValue name v)%method this
        = (SetValue name v ;; SetMaxValue name hi)%method this)
  /\ (SetMinValue name lo ;; SetMaxValue name hi ;; SetValue name v)%method this
     = Returns tt {| def := <[name := {| Name := Name e; Min := lo;
                                         Max := hi; Value := v |}]> (def this) |}.
Proof.
  intros He. unfold bind.
  do 3 (rewrite ?SetValue_perform, ?SetMinValue_perform, ?SetMaxValue_perform;
        cbv beta iota).
  rewrite !perform_unfold. simpl.
  repeat (progress (rewrite ?entry_store, ?insert_insert_eq; cbn [Name Min Max Value])).
  rewrite (entry_defined _ _ _ He). repeat split.
Qed.

(** X11: the bounds invariant, min <= max for every variable, is kept
    by every call that respects it: [Define] with min <= max,
    [SetMinValue] at most the stored max, [SetMaxValue] at least the
    stored min, and [SetValue], with any value at all, or a getter on a
    defined variable. *)
Theorem respectful_call_keeps_bounds c this :
  well_bounded this -> within_bounds c this -> well_bounded (perform c this).
Proof.
  intros Hwb Hc other e'. rewrite perform_unfold.
  destruct (call_name c) as [name|] eqn:Hname; [| apply Hwb].
  simpl. destruct (decide (name = other)) as [-> | Hne].
  - rewrite lookup_insert_eq. intros [= <-].
    destruct c; simpl in *; try discriminate; injection Hname as ->.
    + exact Hc.
    + destruct Hc as [e He]. rewrite (entry_defined _ _ _ He). by apply (Hwb other).
    + destruct Hc as [e He]. rewrite (entry_defined _ _ _ He). by apply (Hwb other).
    + destruct Hc as [e He]. rewrite (entry_defined _ _ _ He). by apply (Hwb other).
    + destruct Hc as [e He]. rewrite (entry_defined _ _ _ He). simpl.
      by apply (Hwb other).
    + destruct Hc as (e & He & Hle). by rewrite (entry_defined _ _ _ He).
    + destruct Hc as (e & He & Hle). by rewrite (entry_defined _ _ _ He).
  - rewrite lookup_insert_ne by done. apply Hwb.
Qed.

(** X12: a call that names a defined variable leaves [Dimensions] as it
    was, and one that names a variable not yet defined adds one to it:
    [Define] inserts or overwrites, and so does every setter and getter. *)
Theorem call_inserts_or_overwrites c this name :
  call_name c = Some name ->
  Dimensions (perform c this)
  = Returns (if decide (is_Some (def this !! name))
             then size (def this) else S (size (def this)))
      (perform c this).
Proof.
  intros Hc. unfold Dimensions. f_equal.
  rewrite perform_unfold, Hc. simpl.
  destruct (decide (is_Some (def this !! name))) as [Hsome | Hnone].
  - by apply map_size_insert_Some.
  - apply map_size_insert_None. by apply eq_None_not_Some.
Qed.

(** X15: a mere read can break the bounds invariant: when the
    uninitialised members of a default-constructed entry are not in
    order, a getter or [SetValue] on a name that is not defined leaves a
    hypercube in which that variable has min > max. *)
Theorem access_of_undefined_breaks_bounds this name v :
  def this !! name = None ->
  (indeterminate_Min <=? indeterminate_Max)%float = false ->
  ~ well_bounded (perform (Call_GetValue name) this)
  /\ ~ well_bounded (perform (Call_GetMinValue name) this)
  /\ ~ well_bounded (perform (Call_GetMaxValue name) this)
  /\ ~ well_bounded (perform (Call_SetValue name v) this).
Proof.
  intros Hnone Hgarbage.
  assert (Hentry : entry name this = MMV_default).
  { unfold entry. by rewrite (subscript_None _ _ Hnone). }
  repeat split; intros Hwb;
    match goal with Hwb : well_bounded (perform ?c this) |- _ =>
      specialize (Hwb name _ (perform_lookup c this name eq_refl))
    end;
    rewrite Hentry in Hwb; simpl in Hwb; congruence.
Qed.

End HyperCube_calls.

(** The properties above on concrete hypercubes. *)
Section HyperCube_calls_examples.
#[local] Existing Instance stale_memory.

Lemma cube_x_well_bounded : well_bounded cube_x.
Proof.
  intros name e He. unfold cube_x in He. simpl in He.
  apply lookup_singleton_Some in He as [_ <-]. reflexivity.
Qed.

(** X1 at a read of "y" on [cube_x] followed by its definition. *)
Lemma Define_absorbs_earlier_call_witness :
  call_name (Call_GetValue "y") = Some "y"
  /\ Define "y" 0 2 1 (perform (Call_GetValue "y") cube_x) = Define "y" 0 2 1 cube_x.
Proof.
  split; [reflexivity |].
  apply (Define_absorbs_earlier_call (Call_GetValue "y") cube_x "y"). reflexivity.
Defined.

(** X3 at [SetValue("x", 50)] on x in [0, 10] with value 5. *)
Lemma setter_changes_one_member_witness :
  def cube_x !! "x" = Some (MMV_new "x" 0 10 5)
  /\ (SetValue "x" 50 ;;
      x <- GetValue "x" ;; lo <- GetMinValue "x" ;; hi <- GetMaxValue "x" ;;
      ret (x, lo, hi))%method cube_x
     = Returns (50%float, 0%float, 10%float) (perform (Call_SetValue "x" 50) cube_x).
Proof.
  split; [reflexivity |].
  apply (proj1 (setter_changes_one_member cube_x "x" (MMV_new "x" 0 10 5) 50 eq_refl)).
Defined.

(** X4 at the variable x of [cube_x]. *)
Lemma getters_leave_defined_variable_witness :
  def cube_x !! "x" = Some (MMV_new "x" 0 10 5)
  /\ GetValue "x" cube_x = Returns 5%float cube_x.
Proof.
  split; [reflexivity |].
  apply (proj1 (getters_leave_defined_variable cube_x "x" (MMV_new "x" 0 10 5) eq_refl)).
Defined.

(** X8 at x, which neither [SetValue("y", 1)] nor [Define("z", 0, 1, 0)]
    names. *)
Lemma calls_leave_other_variables_witness :
  (Some "x" ∉ (call_name <$> [Call_SetValue "y" 1; Call_Define "z" 0 1 0]))
  /\ def (perform_all [Call_SetValue "y" 1; Call_Define "z" 0 1 0] cube_x) !! "x"
     = def cube_x !! "x".
Proof.
  assert (Hx : Some "x" ∉ (call_name <$> [Call_SetValue "y" 1; Call_Define "z" 0 1 0])).
  { simpl. intros Hin. repeat (apply elem_of_cons in Hin as [Hin | Hin]; [discriminate |]).
    by apply elem_of_nil in Hin. }
  split; [exact Hx |].
  apply (proj1 (calls_leave_other_variables _ cube_x "x" Hx)).
Defined.

(** X9 at [SetValue("x", 7)] and [Define("y", 0, 1, 0)] on [cube_x]. *)
Lemma calls_on_different_variables_commute_witness :
  settled (Call_SetValue "x" 7) cube_x
  /\ settled (Call_Define "y" 0 1 0) cube_x
  /\ perform (Call_Define "y" 0 1 0) (perform (Call_SetValue "x" 7) cube_x)
     = perform (Call_SetValue "x" 7) (perform (Call_Define "y" 0 1 0) cube_x).
Proof.
  assert (Hx : settled (Call_SetValue "x" 7) cube_x) by (by eexists).
  split; [exact Hx |]. split; [exact I |].
  apply (calls_on_different_variables_commute
           (Call_SetValue "x" 7) (Call_Define "y" 0 1 0) cube_x); [| exact Hx | exact I].
  intros name [= <-]. discriminate.
Defined.

(** X10 at the variable x of [cube_x]. *)
Lemma setters_on_one_variable_witness :
  def cube_x !! "x" = Some (MMV_new "x" 0 10 5)
  /\ (SetMinValue "x" 1 ;; SetMaxValue "x" 2 ;; SetValue "x" 3)%method cube_x
     = Returns tt {| def := {[ "x" := MMV_new "x" 1 2 3 ]} |}.
Proof.
  split; [reflexivity |].
  destruct (setters_on_one_variable cube_x "x" (MMV_new "x" 0 10 5) 1 2 3 0 eq_refl)
    as (_ & _ & Hall).
  rewrite Hall. reflexivity.
Defined.

(** X11 at [SetMinValue("x", 3)] on x in [0, 10]. *)
Lemma respectful_call_keeps_bounds_witness :
  well_bounded cube_x
  /\ within_bounds (Call_SetMinValue "x" 3) cube_x
  /\ well_bounded (perform (Call_SetMinValue "x" 3) cube_x).
Proof.
  assert (Hc : within_bounds (Call_SetMinValue "x" 3) cube_x).
  { exists (MMV_new "x" 0 10 5). split; reflexivity. }
  split; [exact cube_x_well_bounded |]. split; [exact Hc |].
  exact (respectful_call_keeps_bounds _ _ cube_x_well_bounded Hc).
Defined.

(** X12 at a first read of "y" on [cube_x]. *)
Lemma call_inserts_or_overwrites_witness :
  call_name (Call_GetValue "y") = Some "y"
  /\ Dimensions (perform (Call_GetValue "y") cube_x)
     = Returns 2 (perform (Call_GetValue "y") cube_x).
Proof.
  split; [reflexivity |].
  apply (call_inserts_or_overwrites (Call_GetValue "y") cube_x "y" eq_refl).
Defined.

(** X13 at x and y defined on a new hypercube. *)
Lemma Define_each_Dimensions_witness :
  NoDup ["x"; "y"]
  /\ exists after,
       Define_each [("x", (0, 10, 5)); ("y", (-1, 1, 0))]%float HyperCube_new
       = Returns tt after
       /\ Dimensions after = Returns 2 after.
Proof.
  assert (Hnodup : NoDup ["x"; "y"]).
  { apply NoDup_cons. split; [| apply NoDup_singleton].
    intros Hin. by apply list_elem_of_singleton in Hin. }
  split; [exact Hnodup |].
  apply (Define_each_Dimensions
           [("x", (0, 10, 5)); ("y", (-1, 1, 0))]%float HyperCube_new Hnodup).
  intros name _. apply lookup_empty.
Defined.

(** X15 at a read of "y" on [cube_x], with 7 and -3 as the
    uninitialised min and max. *)
Lemma access_of_undefined_breaks_bounds_witness :
  well_bounded cube_x
  /\ def cube_x !! "y" = None
  /\ ~ well_bounded (perform (Call_GetValue "y") cube_x).
Proof.
  split; [exact cube_x_well_bounded |]. split; [reflexivity |].
  apply (access_of_undefined_breaks_bounds cube_x "y" 0); reflexivity.
Defined.

End HyperCube_calls_examples.

(** * The order of FitnessAssignedScores, continued *)

(** X14: with a fitness type whose [CompareTo] follows its numeric
    order, comparing in the other direction reverses the sign, and an
    object compares as a tie with itself and with any object of the same
    fitness, whatever scores either carries. *)
Theorem CompareTo_swap {T TSys : Type} `{IComparable T}
    (lt : T -> T -> Prop) `{!NumericCompare T lt}
    (a b : FitnessAssignedScores.t T TSys) :
  ((FitnessAssignedScores.CompareTo a b < 0)%Z
   <-> (0 < FitnessAssignedScores.CompareTo b a)%Z)
  /\ (FitnessAssignedScores.CompareTo a b = 0%Z
      <-> FitnessAssignedScores.CompareTo b a = 0%Z)
  /\ FitnessAssignedScores.CompareTo a a = 0%Z
  /\ forall scores,
       FitnessAssignedScores.CompareTo a
         (FitnessAssignedScores.new scores (FitnessAssignedScores.FitnessValue a))
       = 0%Z.
Proof.
  rewrite !CompareTo_unfold. repeat split.
  - intros Hab. by apply CompareTo_pos, CompareTo_neg.
  - intros Hba. by apply CompareTo_neg, CompareTo_pos.
  - intros Hab. apply CompareTo_zero. symmetry. by apply CompareTo_zero.
  - intros Hba. apply CompareTo_zero. symmetry. by apply CompareTo_zero.
  - by apply CompareTo_zero.
  - intros scores. rewrite CompareTo_unfold. by apply CompareTo_zero.
Qed.

(** X14 at fitness values 1 and 2. *)
Lemma CompareTo_swap_witness :
  (FitnessAssignedScores.CompareTo (H := Z_CompareTo)
     (@FitnessAssignedScores.new Z HyperCube None 1%Z)
     (@FitnessAssignedScores.new Z HyperCube None 2%Z) < 0)%Z
  <-> (0 < FitnessAssignedScores.CompareTo (H := Z_CompareTo)
             (@FitnessAssignedScores.new Z HyperCube None 2%Z)
             (@FitnessAssignedScores.new Z HyperCube None 1%Z))%Z.
Proof.
  apply (proj1 (@CompareTo_swap Z HyperCube Z_CompareTo Z.lt Z_CompareTo_numeric
                  (@FitnessAssignedScores.new Z HyperCube None 1%Z)
                  (@FitnessAssignedScores.new Z HyperCube None 2%Z))).
Defined.
